(** * OOP Paradigm Need Analyzer: the decision logic of [src/app/page.tsx]

    The page keeps three pieces of React state (the chosen scenario id, the
    set of checked criterion ids, the comparison flag), two constant
    catalogues ([scenarios] and [criteria]) and one scoring function,
    [getRecommendationFromCriteria].  This file embeds them and proves the
    properties the specification states about them.

    Conventions of the embedding:
    - a JavaScript string is a [string]; [===] on strings is [String.eqb];
    - [undefined] / [null] is [None];
    - an array is a [list]; [Array.prototype.find] is [List.find],
      [Array.prototype.filter] is [List.filter], [.length] is [length];
    - a [Set<string>] is the list of its members in insertion order (the
      order in which [Array.from] enumerates them), kept free of duplicates;
      [has], [add] and [delete] are [set_mem], [set_add] and [set_remove]
      of the standard [ListSet], which append a new member at the end and
      leave the others in place, as the JavaScript operations do. *)

From Stdlib Require Import List String Bool Arith Lia Permutation ListSet.
Import ListNotations.
Open Scope string_scope.

(* ================================================================= *)
(** ** Catalogue records *)

(** [interface Scenario].  The two code snippets of [codeExample] ([oop] and
    [alternative]) are multi-line template literals that the page only
    prints; they are left out here and [codeExample] keeps its label. *)
Module Scenario.
Record t : Type := mk {
  id : string;
  title : string;
  description : string;
  requirements : list string;
  recommendation : string;
  reason : string;
  alternativeLabel : option string
}.
End Scenario.

(** The element type of [const criteria]. *)
Module Criterion.
Record t : Type := mk {
  id : string;
  label : string;
  description : string;
  favor : string
}.
End Criterion.

(** [const scenarios: Scenario[]] *)
Definition scenarios : list Scenario.t :=
  [ Scenario.mk "game-entities"
      "Game with Multiple Entity Types"
      "Building a game with players, enemies, NPCs, each with shared behaviors (move, attack) but unique implementations."
      [ "State encapsulation per entity"; "Polymorphic behavior";
        "Inheritance/composition needed"; "Complex entity relationships" ]
      "oop"
      "OOP excels here due to polymorphism, encapsulation, and the natural modeling of entities as objects with state and behavior. Inheritance or composition patterns provide code reuse."
      (Some "Functional");
    Scenario.mk "data-transformation"
      "Data Processing Pipeline"
      "Processing a list of user records - filtering, mapping, aggregating results."
      [ "Stateless transformations"; "Chainable operations";
        "No complex entity relationships"; "Pure functions preferred" ]
      "functional"
      "Functional programming is superior for data transformations: immutability prevents bugs, composition is natural, and operations are easily testable and parallelizable."
      (Some "Functional (Better)");
    Scenario.mk "ui-components"
      "Reusable UI Components"
      "Building a component library with buttons, inputs, modals that share styling and behavior."
      [ "Component composition"; "State management";
        "Prop inheritance"; "Lifecycle management" ]
      "hybrid"
      "Modern frameworks use hybrid approaches: functional components for rendering with hooks for state (React), or class-based with reactivity (Vue). OOP principles apply to architecture, but implementation is often functional."
      (Some "Functional/Hybrid (Modern)");
    Scenario.mk "payment-system"
      "Payment Processing System"
      "System handling multiple payment methods (credit card, PayPal, crypto) with validation, processing, and refunds."
      [ "Multiple implementations of same interface"; "Strategy pattern needed";
        "Complex business rules"; "State management per transaction" ]
      "oop"
      "OOP shines with the Strategy pattern. Each payment method implements a common interface, allowing runtime selection. Encapsulation keeps payment logic isolated and secure."
      (Some "Functional");
    Scenario.mk "math-utilities"
      "Math Utility Functions"
      "Collection of mathematical operations: factorial, fibonacci, prime checking, etc."
      [ "Pure functions"; "No state needed";
        "Independent operations"; "Simple input/output" ]
      "functional"
      "Pure utility functions don't need classes. Functional approach is simpler, more testable, and easier to understand. No state to manage or objects to instantiate."
      (Some "Functional (Better)");
    Scenario.mk "database-models"
      "Database ORM Models"
      "Defining database schemas with relationships, validation, and query methods."
      [ "Data validation"; "Relationships between models";
        "Instance and static methods"; "Lifecycle hooks" ]
      "oop"
      "ORMs leverage OOP to map database tables to objects. Each row becomes an instance with methods. Relationships (hasMany, belongsTo) are natural. Active Record pattern fits perfectly."
      (Some "Functional");
    Scenario.mk "api-client"
      "REST API Client"
      "Client library for interacting with an API - authentication, request building, error handling."
      [ "State management (auth tokens)"; "Request configuration";
        "Middleware/interceptors"; "Chainable API" ]
      "oop"
      "API clients benefit from OOP: instance holds auth state, methods are discoverable via IDE autocomplete, and configuration is encapsulated. Builder pattern enables fluent interfaces."
      (Some "Functional") ].

(** [const criteria] *)
Definition criteria : list Criterion.t :=
  [ Criterion.mk "state" "Complex State Management"
      "Does each entity need to maintain its own state over time?" "oop";
    Criterion.mk "polymorphism" "Polymorphic Behavior"
      "Do you need multiple implementations of the same interface/contract?" "oop";
    Criterion.mk "inheritance" "Shared Behavior via Inheritance"
      "Do entities share common behavior that can be inherited or composed?" "oop";
    Criterion.mk "encapsulation" "Data + Behavior Encapsulation"
      "Should data and the functions that operate on it be bundled together?" "oop";
    Criterion.mk "pure" "Pure Transformations"
      "Are operations stateless transformations with no side effects?" "functional";
    Criterion.mk "composition" "Function Composition"
      "Can the solution be built by composing small, independent functions?" "functional";
    Criterion.mk "immutability" "Immutability Important"
      "Is immutable data flow critical to prevent bugs?" "functional";
    Criterion.mk "simple" "Simple Utilities"
      "Are these simple utility functions without complex relationships?" "procedural" ].

(** The four members of the union type of [Scenario.recommendation], and the
    three values that the page distinguishes for [favor]. *)
Definition paradigm_keys : list string := ["oop"; "functional"; "procedural"; "hybrid"].
Definition favor_keys : list string := ["oop"; "functional"; "procedural"].

(* ================================================================= *)
(** ** Selection sets *)

(** [Set<string>]: members in insertion order. *)
Definition StringSet : Type := set string.

Definition has (S : StringSet) (id : string) : bool := set_mem string_dec id S.
Definition add (id : string) (S : StringSet) : StringSet := set_add string_dec id S.
Definition delete (id : string) (S : StringSet) : StringSet := set_remove string_dec id S.
Definition size (S : StringSet) : nat := List.length S.
Definition Array_from (S : StringSet) : list string := S.

(** Two sets are equal as sets when they have the same members. *)
Definition same_members (S1 S2 : StringSet) : Prop :=
  forall id, In id S1 <-> In id S2.

(* ================================================================= *)
(** ** The page state and its three handlers *)

Record State : Type := mkState {
  selectedScenario : string;
  selectedCriteria : StringSet;
  showComparison : bool
}.

(** [useState('')], [useState(new Set())], [useState(false)] *)
Definition initialState : State := mkState "" [] false.

(** [const scenario = scenarios.find(s => s.id === selectedScenario)] *)
Definition findScenario (selected : string) : option Scenario.t :=
  find (fun s => String.eqb (Scenario.id s) selected) scenarios.

Definition scenario (st : State) : option Scenario.t :=
  findScenario (selectedScenario st).

(** [criteria.find(c => c.id === id)] *)
Definition findCriterion (id : string) : option Criterion.t :=
  find (fun c => String.eqb (Criterion.id c) id) criteria.

(** [criterion?.favor === key]: the optional chain gives [undefined] on a
    missing criterion, and [undefined] is equal to no string. *)
Definition optFavor (criterion : option Criterion.t) : option string :=
  option_map Criterion.favor criterion.

Definition strictEq (v : option string) (key : string) : bool :=
  match v with
  | Some s => String.eqb s key
  | None => false
  end.

Definition favors (key : string) (id : string) : bool :=
  strictEq (optFavor (findCriterion id)) key.

(** [Array.from(selectedCriteria).filter(id => ...).length] *)
Definition score (key : string) (S : StringSet) : nat :=
  List.length (filter (favors key) (Array_from S)).

Definition oopScore : StringSet -> nat := score "oop".
Definition functionalScore : StringSet -> nat := score "functional".
Definition proceduralScore : StringSet -> nat := score "procedural".

(** The object returned by [getRecommendationFromCriteria]. *)
Record Recommendation : Type := mkRec {
  paradigm : string;
  color : string
}.

(** The colour literals of the page, under the names the specification
    gives them. *)
Definition blue : string := "#3b82f6".
Definition green : string := "#10b981".
Definition amber : string := "#f59e0b".
Definition purple : string := "#8b5cf6".

(** The [colors] object of the scenario list, read by key. *)
Definition colors (key : string) : option string :=
  if String.eqb key "oop" then Some "#3b82f6"
  else if String.eqb key "functional" then Some "#10b981"
  else if String.eqb key "procedural" then Some "#f59e0b"
  else if String.eqb key "hybrid" then Some "#8b5cf6"
  else None.

Definition ObjectOriented : Recommendation := mkRec "Object-Oriented" "#3b82f6".
Definition Functional : Recommendation := mkRec "Functional" "#10b981".
Definition Procedural : Recommendation := mkRec "Procedural" "#f59e0b".
Definition Hybrid : Recommendation := mkRec "Hybrid Approach" "#8b5cf6".

Definition getRecommendationFromCriteria (selected : StringSet) : Recommendation :=
  let oopScore := oopScore selected in
  let functionalScore := functionalScore selected in
  let proceduralScore := proceduralScore selected in
  if ((functionalScore <? oopScore) && (proceduralScore <? oopScore))%nat then
    mkRec "Object-Oriented" "#3b82f6"
  else if (oopScore <? functionalScore)%nat then
    mkRec "Functional" "#10b981"
  else if ((0 <? proceduralScore) && (oopScore <=? proceduralScore))%nat then
    mkRec "Procedural" "#f59e0b"
  else
    mkRec "Hybrid Approach" "#8b5cf6".

(** [selectedCriteria.size > 0 ? getRecommendationFromCriteria() : null] *)
Definition recommend (selected : StringSet) : option Recommendation :=
  if (0 <? size selected)%nat then Some (getRecommendationFromCriteria selected)
  else None.

Definition recommendation (st : State) : option Recommendation :=
  recommend (selectedCriteria st).

(** [toggleCriterion]: copy the set, flip the membership of [id], store it. *)
Definition toggle (id : string) (S : StringSet) : StringSet :=
  let newSet := S in
  if has newSet id then delete id newSet else add id newSet.

Definition toggleCriterion (id : string) (st : State) : State :=
  mkState (selectedScenario st) (toggle id (selectedCriteria st)) (showComparison st).

(** The [onClick] of a scenario button:
    [setSelectedScenario(s.id); setShowComparison(false)]. *)
Definition selectScenario (s : Scenario.t) (st : State) : State :=
  mkState (Scenario.id s) (selectedCriteria st) false.

(** The [onClick] of the comparison button: [setShowComparison(!showComparison)]. *)
Definition toggleComparison (st : State) : State :=
  mkState (selectedScenario st) (selectedCriteria st) (negb (showComparison st)).

(** User actions.  A checkbox exists for each entry of [criteria] and a
    button for each entry of [scenarios]; the comparison button exists while
    a scenario is shown. *)
Inductive Action : Type :=
| ClickCriterion (c : Criterion.t)
| ClickScenario (s : Scenario.t)
| ClickComparison.

Definition enabled (a : Action) (st : State) : Prop :=
  match a with
  | ClickCriterion c => In c criteria
  | ClickScenario s => In s scenarios
  | ClickComparison => scenario st <> None
  end.

Definition step (a : Action) (st : State) : State :=
  match a with
  | ClickCriterion c => toggleCriterion (Criterion.id c) st
  | ClickScenario s => selectScenario s st
  | ClickComparison => toggleComparison st
  end.

Inductive reachable : State -> Prop :=
| reach_init : reachable initialState
| reach_step a st : reachable st -> enabled a st -> reachable (step a st).

(** A sequence of clicks, each one enabled when it is made. *)
Fixpoint run (actions : list Action) (st : State) : State :=
  match actions with
  | [] => st
  | a :: rest => run rest (step a st)
  end.

(* ================================================================= *)
(** ** What the page shows

    The conditions and the computed attributes of the JSX, as functions of
    the state. *)

(** [c.favor === 'oop' ? '#3b82f6' : c.favor === 'functional' ? '#10b981' : '#f59e0b'] *)
Definition favorColor (c : Criterion.t) : string :=
  if String.eqb (Criterion.favor c) "oop" then "#3b82f6"
  else if String.eqb (Criterion.favor c) "functional" then "#10b981"
  else "#f59e0b".

(** [c.favor === 'oop' ? 'OOP' : c.favor === 'functional' ? 'Functional' : 'Procedural'] *)
Definition favorLabel (c : Criterion.t) : string :=
  if String.eqb (Criterion.favor c) "oop" then "OOP"
  else if String.eqb (Criterion.favor c) "functional" then "Functional"
  else "Procedural".

(** [checked={selectedCriteria.has(c.id)}] *)
Definition checked (st : State) (c : Criterion.t) : bool :=
  has (selectedCriteria st) (Criterion.id c).

(** [borderColor] and [background] of a criterion's label. *)
Definition criterionBorderColor (st : State) (c : Criterion.t) : string :=
  if has (selectedCriteria st) (Criterion.id c) then favorColor c else "#e5e7eb".

Definition criterionBackground (st : State) (c : Criterion.t) : string :=
  if has (selectedCriteria st) (Criterion.id c) then "#f9fafb" else "white".

(** [borderColor] and [background] of a scenario's button; [colors[k]] is
    [undefined] for a key the object does not have. *)
Definition scenarioBorderColor (st : State) (s : Scenario.t) : option string :=
  if String.eqb (selectedScenario st) (Scenario.id s)
  then colors (Scenario.recommendation s)
  else Some "#e5e7eb".

Definition scenarioBackground (st : State) (s : Scenario.t) : string :=
  if String.eqb (selectedScenario st) (Scenario.id s) then "#f9fafb" else "white".


(** [{scenario && (...)}]: the details panel, which holds the comparison
    button, and inside it [{showComparison && (...)}]. *)
Definition detailsShown (st : State) : bool :=
  match scenario st with
  | Some _ => true
  | None => false
  end.

Definition comparisonShown (st : State) : bool :=
  detailsShown st && showComparison st.

(* ================================================================= *)
(** ** [find] by key

    Both catalogues are searched with [l.find(x => x.key === k)]. *)

Section FindByKey.
Variable A : Type.
Variable key : A -> string.

Lemma find_key_some k l x :
  find (fun y => String.eqb (key y) k) l = Some x -> In x l /\ key x = k.
Proof.
  intros H. apply find_some in H.
  destruct H as [Hin Hk]. apply String.eqb_eq in Hk. auto.
Qed.

Lemma find_key_none k l :
  find (fun y => String.eqb (key y) k) l = None <-> ~ In k (map key l).
Proof.
  induction l as [|x l IH]; simpl.
  - tauto.
  - destruct (String.eqb_spec (key x) k) as [E|E].
    + split; [discriminate | intros H; exfalso; apply H; auto].
    + rewrite IH. tauto.
Qed.

Lemma find_key_in k l :
  In k (map key l) ->
  exists x, find (fun y => String.eqb (key y) k) l = Some x.
Proof.
  intros Hin. destruct (find (fun y => String.eqb (key y) k) l) as [x|] eqn:E.
  - now exists x.
  - apply find_key_none in E. contradiction.
Qed.

Lemma key_unique l x y :
  NoDup (map key l) -> In x l -> In y l -> key x = key y -> x = y.
Proof.
  induction l as [|z l IH]; simpl; [tauto |].
  intros Hnd Hx Hy E. inversion Hnd as [|? ? Hz Hnd']; subst.
  destruct Hx as [-> | Hx], Hy as [-> | Hy].
  - reflexivity.
  - exfalso. apply Hz. rewrite E. now apply in_map.
  - exfalso. apply Hz. rewrite <- E. now apply in_map.
  - now apply IH.
Qed.
End FindByKey.

Arguments find_key_some {A} key k l x.
Arguments find_key_none {A} key k l.
Arguments find_key_in {A} key k l.
Arguments key_unique {A} key l x y.

(* ================================================================= *)
(** ** Facts about the scores *)

Lemma favors_unknown key id :
  ~ In id (map Criterion.id criteria) -> favors key id = false.
Proof.
  intros H. unfold favors, findCriterion.
  apply (find_key_none Criterion.id) in H. now rewrite H.
Qed.

Lemma score_nil key : score key [] = 0.
Proof. reflexivity. Qed.

Lemma score_cons key id S :
  score key (id :: S) = (if favors key id then 1 else 0) + score key S.
Proof.
  unfold score, Array_from. simpl. now destruct (favors key id).
Qed.

Lemma score_le_size key S : score key S <= size S.
Proof.
  induction S as [|id S IH].
  - apply Nat.le_refl.
  - rewrite score_cons. unfold size in *. simpl.
    destruct (favors key id); lia.
Qed.

Lemma score_Permutation key S1 S2 :
  Permutation S1 S2 -> score key S1 = score key S2.
Proof.
  induction 1 as [| x l l' _ IH | x y l | l l' l'' _ IH1 _ IH2].
  - reflexivity.
  - rewrite !score_cons. now rewrite IH.
  - rewrite !score_cons. lia.
  - now transitivity (score key l').
Qed.

Lemma score_add key id S :
  score key (add id S) =
  score key S + (if has S id then 0 else if favors key id then 1 else 0).
Proof.
  unfold add, has. induction S as [|x S IH]; simpl.
  - rewrite score_cons, score_nil. destruct (favors key id); reflexivity.
  - destruct (string_dec id x) as [E|E].
    + lia.
    + rewrite !score_cons, IH. lia.
Qed.

Lemma score_delete key id S :
  NoDup S ->
  score key (delete id S) + (if has S id then if favors key id then 1 else 0 else 0)
  = score key S.
Proof.
  unfold delete, has. induction 1 as [|x S Hx Hnd IH]; simpl.
  - reflexivity.
  - destruct (string_dec id x) as [E|E].
    + subst x. rewrite score_cons. lia.
    + rewrite !score_cons. lia.
Qed.

Lemma recommend_nonempty S :
  S <> [] -> recommend S = Some (getRecommendationFromCriteria S).
Proof.
  intros H. unfold recommend, size.
  destruct S as [|x S]; [contradiction | reflexivity].
Qed.

Lemma recommend_none S : recommend S = None <-> S = [].
Proof.
  unfold recommend, size. destruct S as [|x S]; simpl.
  - tauto.
  - split; discriminate.
Qed.

(** The four branches of [getRecommendationFromCriteria], each with the
    conditions under which it is the one taken. *)
Lemma getRecommendationFromCriteria_cases S :
  let o := oopScore S in
  let f := functionalScore S in
  let p := proceduralScore S in
  (f < o /\ p < o /\ getRecommendationFromCriteria S = ObjectOriented) \/
  (~ (f < o /\ p < o) /\ o < f /\
     getRecommendationFromCriteria S = Functional) \/
  (~ (f < o /\ p < o) /\ ~ o < f /\ 0 < p /\ o <= p /\
     getRecommendationFromCriteria S = Procedural) \/
  (~ (f < o /\ p < o) /\ ~ o < f /\ ~ (0 < p /\ o <= p) /\
     getRecommendationFromCriteria S = Hybrid).
Proof.
  unfold getRecommendationFromCriteria.
  generalize (oopScore S) (functionalScore S) (proceduralScore S).
  intros o f p. cbv zeta.
  destruct (Nat.ltb_spec f o), (Nat.ltb_spec p o), (Nat.ltb_spec o f),
    (Nat.ltb_spec 0 p), (Nat.leb_spec o p); simpl;
    first [ left; repeat split; (lia || reflexivity)
          | right; left; repeat split; (lia || reflexivity)
          | right; right; left; repeat split; (lia || reflexivity)
          | right; right; right; repeat split; (lia || reflexivity) ].
Qed.

(* ================================================================= *)
(** ** The decision policy *)

(** C1.  For a non-empty selection the rules are tried in the order of the
    source and the first one that holds decides: oop strictly ahead of both
    others gives Object-Oriented; otherwise functional strictly ahead of oop
    gives Functional, whatever the procedural count is (also when it is at
    least the functional count); otherwise a positive procedural count that
    is at least the oop count gives Procedural; otherwise Hybrid Approach. *)
Theorem C1_rules_in_order (S : StringSet) :
  S <> [] ->
  let o := oopScore S in
  let f := functionalScore S in
  let p := proceduralScore S in
  (o > f /\ o > p -> recommend S = Some ObjectOriented) /\
  (~ (o > f /\ o > p) -> f > o -> recommend S = Some Functional) /\
  (f > o -> p >= f -> recommend S = Some Functional) /\
  (~ (o > f /\ o > p) -> ~ f > o -> p > 0 /\ p >= o ->
     recommend S = Some Procedural) /\
  (~ (o > f /\ o > p) -> ~ f > o -> ~ (p > 0 /\ p >= o) ->
     recommend S = Some Hybrid).
Proof.
  intros Hne o f p. rewrite (recommend_nonempty S Hne).
  pose proof (getRecommendationFromCriteria_cases S) as H.
  cbv zeta in H. fold o f p in H.
  destruct H as [H | [H | [H | H]]];
    repeat match type of H with _ /\ _ => destruct H as [? H] end;
    rewrite H; repeat split; intros; first [reflexivity | exfalso; lia].
Qed.

Lemma C1_rules_in_order_witness :
  ["pure"; "simple"] <> [] /\
  functionalScore ["pure"; "simple"] > oopScore ["pure"; "simple"] /\
  proceduralScore ["pure"; "simple"] >= functionalScore ["pure"; "simple"] /\
  recommend ["pure"; "simple"] = Some Functional.
Proof.
  assert (Hne : ["pure"; "simple"] <> ([] : StringSet)) by discriminate.
  split; [exact Hne |].
  split; [vm_compute; lia |].
  split; [vm_compute; lia |].
  apply (C1_rules_in_order ["pure"; "simple"] Hne); vm_compute; lia.
Defined.

(** C2, as the code has it.  When the three counts are equal and positive,
    the third rule applies (the procedural count is positive and at least
    the oop count), so the result is Procedural, not Hybrid Approach. *)
Theorem C2_equal_positive_counts_give_Procedural (S : StringSet) :
  oopScore S = functionalScore S ->
  functionalScore S = proceduralScore S ->
  0 < proceduralScore S ->
  recommend S = Some Procedural.
Proof.
  intros Hof Hfp Hp.
  assert (Hne : S <> []).
  { intros ->. unfold proceduralScore in Hp. rewrite score_nil in Hp. lia. }
  rewrite (recommend_nonempty S Hne).
  pose proof (getRecommendationFromCriteria_cases S) as H. cbv zeta in H.
  destruct H as [H | [H | [H | H]]];
    repeat match type of H with _ /\ _ => destruct H as [? H] end;
    first [exact (f_equal Some H) | exfalso; lia].
Qed.

Lemma C2_equal_positive_counts_give_Procedural_witness :
  oopScore ["state"; "pure"; "simple"] = 1 /\
  functionalScore ["state"; "pure"; "simple"] = 1 /\
  proceduralScore ["state"; "pure"; "simple"] = 1 /\
  recommend ["state"; "pure"; "simple"] = Some Procedural.
Proof.
  split; [reflexivity |]. split; [reflexivity |]. split; [reflexivity |].
  apply (C2_equal_positive_counts_give_Procedural ["state"; "pure"; "simple"]);
    vm_compute; lia.
Defined.

(** C2, as the specification words it, fails: one oop, one functional and
    one procedural criterion give three equal positive counts, and the
    result is not Hybrid Approach. *)
Lemma C2_equal_positive_counts_not_Hybrid :
  oopScore ["state"; "pure"; "simple"] = functionalScore ["state"; "pure"; "simple"] /\
  functionalScore ["state"; "pure"; "simple"] = proceduralScore ["state"; "pure"; "simple"] /\
  0 < oopScore ["state"; "pure"; "simple"] /\
  recommend ["state"; "pure"; "simple"] <> Some Hybrid.
Proof.
  repeat split; try (vm_compute; lia).
  vm_compute. discriminate.
Qed.

(** C3.  The empty selection yields nothing, and it is the only selection
    that does: a recommendation is produced exactly for the non-empty ones. *)
Theorem C3_empty_selection_yields_nothing :
  recommend [] = None /\
  recommendation initialState = None /\
  (forall S : StringSet, recommend S = None <-> S = []) /\
  (forall S : StringSet, (exists r, recommend S = Some r) <-> S <> []).
Proof.
  split; [reflexivity |]. split; [reflexivity |].
  split; [exact recommend_none |].
  intros S. split.
  - intros [r Hr] ->. discriminate.
  - intros Hne. exists (getRecommendationFromCriteria S).
    now apply recommend_nonempty.
Qed.

(** C6.  Whatever selection yields a result, the result is one of the four
    fixed pairs: Object-Oriented with blue, Functional with green,
    Procedural with amber, Hybrid Approach with purple. *)
Theorem C6_fixed_color_per_paradigm (S : StringSet) (r : Recommendation) :
  recommend S = Some r ->
  (paradigm r = "Object-Oriented" /\ color r = blue) \/
  (paradigm r = "Functional" /\ color r = green) \/
  (paradigm r = "Procedural" /\ color r = amber) \/
  (paradigm r = "Hybrid Approach" /\ color r = purple).
Proof.
  unfold recommend. destruct (0 <? size S)%nat; [| discriminate].
  intros [= <-].
  pose proof (getRecommendationFromCriteria_cases S) as H. cbv zeta in H.
  destruct H as [H | [H | [H | H]]];
    repeat match type of H with _ /\ _ => destruct H as [? H] end;
    rewrite H; auto 6.
Qed.

Lemma C6_fixed_color_per_paradigm_witness :
  recommend ["simple"] = Some Procedural /\
  paradigm Procedural = "Procedural" /\ color Procedural = amber.
Proof.
  assert (H : recommend ["simple"] = Some Procedural) by reflexivity.
  split; [exact H |].
  destruct (C6_fixed_color_per_paradigm ["simple"] Procedural H)
    as [[P _] | [[P _] | [PC | [P _]]]];
    try discriminate P.
  exact PC.
Defined.

(** The same four literals colour the scenario list, keyed by the
    scenario's recommendation. *)
Lemma colors_table :
  colors "oop" = Some (color ObjectOriented) /\
  colors "functional" = Some (color Functional) /\
  colors "procedural" = Some (color Procedural) /\
  colors "hybrid" = Some (color Hybrid).
Proof. repeat split. Qed.

(* ================================================================= *)
(** ** The catalogues *)

Lemma scenario_ids_NoDup : NoDup (map Scenario.id scenarios).
Proof.
  simpl. repeat (apply NoDup_cons; [simpl; intuition discriminate |]).
  apply NoDup_nil.
Qed.

Lemma criterion_ids_NoDup : NoDup (map Criterion.id criteria).
Proof.
  simpl. repeat (apply NoDup_cons; [simpl; intuition discriminate |]).
  apply NoDup_nil.
Qed.

(** C8.  Scenario ids are pairwise distinct and every scenario recommends
    one of oop, functional, procedural, hybrid; criterion ids are pairwise
    distinct and every criterion favors one of oop, functional, procedural,
    never hybrid. *)
Theorem C8_catalogue_invariants :
  NoDup (map Scenario.id scenarios) /\
  Forall (fun s => In (Scenario.recommendation s) paradigm_keys) scenarios /\
  NoDup (map Criterion.id criteria) /\
  Forall (fun c => In (Criterion.favor c) favor_keys) criteria /\
  Forall (fun c => Criterion.favor c <> "hybrid") criteria.
Proof.
  split; [exact scenario_ids_NoDup |].
  split; [repeat apply Forall_cons; try apply Forall_nil; simpl; auto 10 |].
  split; [exact criterion_ids_NoDup |].
  split; [repeat apply Forall_cons; try apply Forall_nil; simpl; auto 10 |].
  repeat apply Forall_cons; try apply Forall_nil; simpl; discriminate.
Qed.

Lemma findScenario_known (id : string) :
  In id (map Scenario.id scenarios) ->
  exists s, findScenario id = Some s /\ Scenario.id s = id /\ In s scenarios /\
            forall s', In s' scenarios -> Scenario.id s' = id -> s' = s.
Proof.
  intros Hin.
  destruct (find_key_in Scenario.id id scenarios Hin) as [s Hs].
  destruct (find_key_some Scenario.id id scenarios s Hs) as [Hs_in Hs_id].
  exists s. repeat split; auto.
  intros s' Hin' Hid'.
  apply (key_unique Scenario.id scenarios); auto using scenario_ids_NoDup.
  congruence.
Qed.

Lemma findScenario_unknown (id : string) :
  ~ In id (map Scenario.id scenarios) -> findScenario id = None.
Proof. intros Hout. now apply (find_key_none Scenario.id). Qed.

(** C7.  Looking a scenario up by an id of the catalogue returns a record of
    the catalogue with that id, the only one there is; any other id returns
    nothing.  [findScenario] is a total function, so no lookup fails. *)
Theorem C7_findScenario (id : string) :
  (In id (map Scenario.id scenarios) ->
     exists s, findScenario id = Some s /\ Scenario.id s = id /\ In s scenarios /\
               forall s', In s' scenarios -> Scenario.id s' = id -> s' = s) /\
  (~ In id (map Scenario.id scenarios) -> findScenario id = None).
Proof.
  split; [apply findScenario_known | apply findScenario_unknown].
Qed.

Lemma C7_findScenario_witness :
  (exists s, findScenario "payment-system" = Some s /\
             Scenario.id s = "payment-system") /\
  findScenario "" = None.
Proof.
  split.
  - destruct (proj1 (C7_findScenario "payment-system")) as [s [H1 [H2 _]]].
    + simpl. auto 10.
    + exists s. split; assumption.
  - apply (proj2 (C7_findScenario "")).
    simpl. intuition discriminate.
Defined.

(* ================================================================= *)
(** ** Selection sets: membership *)

Lemma has_In S id : has S id = true <-> In id S.
Proof.
  unfold has. split.
  - apply set_mem_correct1.
  - apply set_mem_correct2.
Qed.

Lemma has_ext S1 S2 id : (In id S1 <-> In id S2) -> has S1 id = has S2 id.
Proof.
  intros H. destruct (has S1 id) eqn:E1, (has S2 id) eqn:E2; try reflexivity.
  - apply has_In, H, has_In in E1. congruence.
  - apply has_In, H, has_In in E2. congruence.
Qed.

Lemma toggle_NoDup id S : NoDup S -> NoDup (toggle id S).
Proof.
  intros H. unfold toggle, add, delete. destruct (has S id).
  - now apply set_remove_nodup.
  - now apply set_add_nodup.
Qed.

Lemma toggle_In id S y :
  NoDup S -> (In y (toggle id S) <-> (if string_dec y id then ~ In y S else In y S)).
Proof.
  intros Hnd. unfold toggle, add, delete.
  destruct (has S id) eqn:E.
  - apply has_In in E. rewrite (set_remove_iff string_dec y id Hnd).
    destruct (string_dec y id) as [-> | Hne]; tauto.
  - assert (Hout : ~ In id S) by (rewrite <- has_In; congruence).
    rewrite set_add_iff.
    destruct (string_dec y id) as [-> | Hne]; tauto.
Qed.

Lemma toggle_twice id S : NoDup S -> same_members (toggle id (toggle id S)) S.
Proof.
  intros Hnd y.
  rewrite (toggle_In id (toggle id S) y (toggle_NoDup id S Hnd)).
  destruct (string_dec y id) as [-> | Hne] eqn:E.
  - rewrite (toggle_In id S id Hnd).
    destruct (string_dec id id); [| congruence].
    destruct (in_dec string_dec id S); tauto.
  - rewrite (toggle_In id S y Hnd). rewrite E. tauto.
Qed.

Lemma same_members_Permutation S1 S2 :
  NoDup S1 -> NoDup S2 -> same_members S1 S2 -> Permutation S1 S2.
Proof. intros H1 H2 H. now apply NoDup_Permutation. Qed.

(* ================================================================= *)
(** ** Unknown ids, order and totality *)

(** C4, as the code has it.  An id that names no criterion changes none of
    the three counts, so [getRecommendationFromCriteria] returns the same
    result with or without it, and so does the recommendation of every
    non-empty selection (an oop-favoring singleton among them). *)
Theorem C4_unknown_id_counts_nowhere (S : StringSet) (id : string) :
  ~ In id (map Criterion.id criteria) ->
  oopScore (add id S) = oopScore S /\
  functionalScore (add id S) = functionalScore S /\
  proceduralScore (add id S) = proceduralScore S /\
  getRecommendationFromCriteria (add id S) = getRecommendationFromCriteria S /\
  (S <> [] -> recommend (add id S) = recommend S).
Proof.
  intros Hout.
  assert (Hs : forall key, score key (add id S) = score key S).
  { intros key. rewrite score_add, (favors_unknown key id Hout).
    destruct (has S id); lia. }
  assert (Hg : getRecommendationFromCriteria (add id S)
               = getRecommendationFromCriteria S).
  { unfold getRecommendationFromCriteria, oopScore, functionalScore,
      proceduralScore. now rewrite !Hs. }
  repeat split; try apply Hs; try exact Hg.
  intros Hne. rewrite (recommend_nonempty S Hne).
  rewrite recommend_nonempty; [now rewrite Hg |].
  apply set_add_not_empty.
Qed.

Lemma C4_unknown_id_counts_nowhere_witness :
  ~ In "mystery" (map Criterion.id criteria) /\
  recommend (add "mystery" ["state"]) = recommend ["state"] /\
  recommend ["state"] = Some ObjectOriented.
Proof.
  assert (Hout : ~ In "mystery" (map Criterion.id criteria))
    by (simpl; intuition discriminate).
  split; [exact Hout |]. split; [| reflexivity].
  apply (C4_unknown_id_counts_nowhere ["state"] "mystery" Hout).
  discriminate.
Defined.

(** C4, as the specification words it, fails on the empty selection: the
    empty set yields nothing, and the set holding one unknown id is not
    empty, so it yields Hybrid Approach. *)
Lemma C4_unknown_id_on_empty_selection :
  ~ In "mystery" (map Criterion.id criteria) /\
  recommend [] = None /\
  recommend (add "mystery" []) = Some Hybrid /\
  recommend (add "mystery" []) <> recommend [].
Proof.
  split; [simpl; intuition discriminate |].
  split; [reflexivity |]. split; [reflexivity |].
  vm_compute. discriminate.
Qed.

(** C5.  The recommendation depends on the members of the selection only:
    two selections with the same members, in whatever order they were
    inserted, get the same result.  The computation is defined on every
    selection, unknown ids included, and returns one of the four results;
    on a non-empty selection that result is the recommendation. *)
Theorem C5_total_and_order_independent (S1 S2 : StringSet) :
  NoDup S1 -> NoDup S2 -> same_members S1 S2 ->
  recommend S1 = recommend S2 /\
  getRecommendationFromCriteria S1 = getRecommendationFromCriteria S2 /\
  In (getRecommendationFromCriteria S1)
     [ObjectOriented; Functional; Procedural; Hybrid] /\
  (S1 <> [] -> recommend S1 = Some (getRecommendationFromCriteria S1)).
Proof.
  intros H1 H2 Hsame.
  pose proof (same_members_Permutation S1 S2 H1 H2 Hsame) as HP.
  assert (Hg : getRecommendationFromCriteria S1
               = getRecommendationFromCriteria S2).
  { unfold getRecommendationFromCriteria, oopScore, functionalScore,
      proceduralScore.
    now rewrite !(score_Permutation _ S1 S2 HP). }
  split; [| split; [exact Hg | split]].
  - unfold recommend, size. rewrite (Permutation_length HP). now rewrite Hg.
  - pose proof (getRecommendationFromCriteria_cases S1) as H. cbv zeta in H.
    destruct H as [H | [H | [H | H]]];
      repeat match type of H with _ /\ _ => destruct H as [? H] end;
      rewrite H; simpl; auto.
  - apply recommend_nonempty.
Qed.

Lemma C5_total_and_order_independent_witness :
  recommend ["simple"; "mystery"; "state"; "polymorphism"]
  = recommend ["polymorphism"; "state"; "mystery"; "simple"].
Proof.
  refine (proj1 (C5_total_and_order_independent
                   ["simple"; "mystery"; "state"; "polymorphism"]
                   ["polymorphism"; "state"; "mystery"; "simple"] _ _ _)).
  - repeat (apply NoDup_cons; [simpl; intuition discriminate |]).
    apply NoDup_nil.
  - repeat (apply NoDup_cons; [simpl; intuition discriminate |]).
    apply NoDup_nil.
  - intros id. simpl. tauto.
Defined.

(* ================================================================= *)
(** ** The handlers *)

(** C9.  On a selection set, [toggleCriterion x] flips the membership of
    [x], leaves the membership of every other id as it was, keeps the set
    free of duplicates, and applied twice gives back a set with the members
    (and the size) it started from; the other two state variables are not
    touched. *)
Theorem C9_toggle_involution (st : State) (x : string) :
  NoDup (selectedCriteria st) ->
  let st1 := toggleCriterion x st in
  let st2 := toggleCriterion x st1 in
  has (selectedCriteria st1) x = negb (has (selectedCriteria st) x) /\
  (forall y, y <> x ->
     has (selectedCriteria st1) y = has (selectedCriteria st) y) /\
  NoDup (selectedCriteria st1) /\
  same_members (selectedCriteria st2) (selectedCriteria st) /\
  size (selectedCriteria st2) = size (selectedCriteria st) /\
  selectedScenario st2 = selectedScenario st /\
  showComparison st2 = showComparison st.
Proof.
  intros Hnd st1 st2. subst st1 st2. simpl.
  set (S := selectedCriteria st) in *.
  pose proof (toggle_NoDup x S Hnd) as Hnd1.
  pose proof (toggle_twice x S Hnd) as Htw.
  split; [| split; [| split; [exact Hnd1 | split; [exact Htw | split]]]].
  - pose proof (toggle_In x S x Hnd) as H.
    destruct (string_dec x x); [| congruence].
    destruct (has S x) eqn:E; simpl.
    + apply has_In in E.
      destruct (has (toggle x S) x) eqn:E1; [| reflexivity].
      apply has_In in E1. tauto.
    + apply has_In. apply H. rewrite <- has_In. congruence.
  - intros y Hy. apply has_ext.
    rewrite (toggle_In x S y Hnd).
    destruct (string_dec y x); [contradiction | tauto].
  - unfold size. apply Permutation_length.
    apply same_members_Permutation; auto using toggle_NoDup.
  - split; reflexivity.
Qed.

Lemma C9_toggle_involution_witness :
  has (selectedCriteria (toggleCriterion "pure" (mkState "" ["state"; "pure"; "simple"] true)))
      "pure" = false /\
  has (selectedCriteria (toggleCriterion "pure" (mkState "" ["state"; "simple"] true)))
      "pure" = true.
Proof.
  split.
  - refine (proj1 (C9_toggle_involution
                     (mkState "" ["state"; "pure"; "simple"] true) "pure" _)).
    simpl. repeat (apply NoDup_cons; [simpl; intuition discriminate |]).
    apply NoDup_nil.
  - reflexivity.
Defined.

(** Toggling an id that sits in the middle of the insertion order and
    toggling it again moves it to the end: the set is the same, the order in
    which [Array.from] lists it is not. *)
Example toggle_twice_moves_to_end :
  toggle "pure" (toggle "pure" ["state"; "pure"; "simple"])
  = ["state"; "simple"; "pure"].
Proof. reflexivity. Qed.

(** C10.  Clicking a scenario hides the comparison whatever the flag was,
    makes that scenario the selected one and leaves the selected criteria
    (hence the recommendation) as they were. *)
Theorem C10_selectScenario_hides_comparison (s : Scenario.t) (st : State) :
  showComparison (selectScenario s st) = false /\
  selectedCriteria (selectScenario s st) = selectedCriteria st /\
  recommendation (selectScenario s st) = recommendation st /\
  selectedScenario (selectScenario s st) = Scenario.id s.
Proof. repeat split. Qed.

(** After the click the details panel shows the clicked scenario. *)
Lemma selectScenario_shows (s : Scenario.t) (st : State) :
  In s scenarios -> scenario (selectScenario s st) = Some s.
Proof.
  intros Hin. unfold scenario. simpl.
  destruct (findScenario_known (Scenario.id s) (in_map _ _ _ Hin))
    as [s' [Hfind [_ [_ Huniq]]]].
  rewrite Hfind. f_equal. symmetry. now apply Huniq.
Qed.

(* ================================================================= *)
(** ** States the page can be in *)

(** Every state reached from the initial one by clicks keeps the selection
    free of duplicates and inside the criteria catalogue, and the selected
    scenario is the initial empty string or an id of the catalogue. *)
Lemma reachable_invariant (st : State) :
  reachable st ->
  NoDup (selectedCriteria st) /\
  incl (selectedCriteria st) (map Criterion.id criteria) /\
  (selectedScenario st = "" \/ In (selectedScenario st) (map Scenario.id scenarios)).
Proof.
  induction 1 as [| a st Hr [Hnd [Hincl Hsel]] Hen].
  - split; [constructor | split; [intros x [] | now left]].
  - destruct a as [c | s |];
      cbn [step enabled toggleCriterion selectScenario toggleComparison
           selectedCriteria selectedScenario] in *.
    + split; [now apply toggle_NoDup | split; [| exact Hsel]].
      intros y Hy. apply (toggle_In _ _ _ Hnd) in Hy.
      destruct (string_dec y (Criterion.id c)) as [-> | _].
      * now apply in_map.
      * now apply Hincl.
    + split; [exact Hnd | split; [exact Hincl |]].
      right. now apply in_map.
    + split; [exact Hnd | split; [exact Hincl | exact Hsel]].
Qed.

(** On such states every selected id is a criterion, so the three counts
    add up to the size of the selection. *)
Lemma favors_known (id : string) :
  In id (map Criterion.id criteria) ->
  (if favors "oop" id then 1 else 0) + (if favors "functional" id then 1 else 0)
  + (if favors "procedural" id then 1 else 0) = 1.
Proof.
  simpl. intros H.
  repeat (destruct H as [<- | H]; [reflexivity |]). contradiction.
Qed.

Lemma scores_sum (S : StringSet) :
  incl S (map Criterion.id criteria) ->
  oopScore S + functionalScore S + proceduralScore S = size S.
Proof.
  unfold oopScore, functionalScore, proceduralScore, size.
  induction S as [|id S IH]; intros Hincl.
  - reflexivity.
  - rewrite !score_cons. simpl List.length.
    pose proof (favors_known id (Hincl id (or_introl eq_refl))) as Hk.
    assert (IH' := IH (fun y Hy => Hincl y (or_intror Hy))). lia.
Qed.

(* ================================================================= *)
(** ** The decision policy, rule by rule *)

Lemma favors_exclusive (k1 k2 id : string) :
  favors k1 id = true -> favors k2 id = true -> k1 = k2.
Proof.
  unfold favors, strictEq.
  destruct (optFavor (findCriterion id)) as [v|]; [| discriminate].
  intros H1 H2. apply String.eqb_eq in H1, H2. congruence.
Qed.

Lemma favors_other (k1 k2 id : string) :
  favors k1 id = true -> k1 <> k2 -> favors k2 id = false.
Proof.
  intros H1 Hne. destruct (favors k2 id) eqn:E; [| reflexivity].
  exfalso. apply Hne. now apply (favors_exclusive k1 k2 id).
Qed.

Lemma results_distinct :
  ObjectOriented <> Functional /\ ObjectOriented <> Procedural /\
  ObjectOriented <> Hybrid /\ Functional <> Procedural /\
  Functional <> Hybrid /\ Procedural <> Hybrid.
Proof. repeat split; discriminate. Qed.

(** Closes a goal [Some r = Some r'] or an absurd context by running
    through the four branches of the source. *)
Ltac by_rule S :=
  let H := fresh "Hrule" in
  pose proof (getRecommendationFromCriteria_cases S) as H; cbv zeta in H;
  destruct H as [H | [H | [H | H]]];
  repeat match type of H with _ /\ _ => destruct H as [? H] end;
  first [ exact H | exact (f_equal Some H) | exfalso; lia
        | exfalso; pose proof results_distinct; intuition congruence ].

Lemma getRecommendationFromCriteria_iff (S : StringSet) :
  let o := oopScore S in
  let f := functionalScore S in
  let p := proceduralScore S in
  (getRecommendationFromCriteria S = ObjectOriented <-> f < o /\ p < o) /\
  (getRecommendationFromCriteria S = Functional <-> o < f) /\
  (getRecommendationFromCriteria S = Procedural <-> f <= o /\ o <= p /\ 0 < p) /\
  (getRecommendationFromCriteria S = Hybrid <-> o = f /\ (p = 0 \/ p < o)).
Proof.
  intros o f p.
  pose proof (getRecommendationFromCriteria_cases S) as H.
  cbv zeta in H. fold o f p in H.
  destruct results_distinct as [D1 [D2 [D3 [D4 [D5 D6]]]]].
  destruct H as [H | [H | [H | H]]];
    repeat match type of H with _ /\ _ => destruct H as [? H] end;
    rewrite H; repeat split; intros;
    try assumption; try reflexivity; try lia;
    try (exfalso; congruence); try (exfalso; lia).
Qed.

Lemma recommend_some (S : StringSet) (r : Recommendation) :
  recommend S = Some r <-> S <> [] /\ getRecommendationFromCriteria S = r.
Proof.
  destruct S as [|x S].
  - split; [discriminate | intros [H _]; contradiction].
  - unfold recommend, size. simpl. split.
    + intros [= <-]. split; [discriminate | reflexivity].
    + intros [_ <-]. reflexivity.
Qed.

Lemma recommend_Permutation (S1 S2 : StringSet) :
  Permutation S1 S2 -> recommend S1 = recommend S2.
Proof.
  intros HP. unfold recommend, size, getRecommendationFromCriteria,
    oopScore, functionalScore, proceduralScore.
  rewrite (Permutation_length HP).
  now rewrite !(score_Permutation _ S1 S2 HP).
Qed.

(** X1.  Each result has its own condition on the three counts, with the
    order of the rules resolved: Object-Oriented exactly when oop is
    strictly ahead of both others; Functional exactly when functional is
    strictly ahead of oop; Procedural exactly when functional <= oop <=
    procedural with procedural positive; Hybrid Approach exactly when oop
    and functional tie and procedural is zero or strictly behind them. *)
Theorem X1_result_conditions (S : StringSet) :
  let o := oopScore S in
  let f := functionalScore S in
  let p := proceduralScore S in
  (recommend S = Some ObjectOriented <-> S <> [] /\ f < o /\ p < o) /\
  (recommend S = Some Functional <-> S <> [] /\ o < f) /\
  (recommend S = Some Procedural <-> S <> [] /\ f <= o /\ o <= p /\ 0 < p) /\
  (recommend S = Some Hybrid <-> S <> [] /\ o = f /\ (p = 0 \/ p < o)).
Proof.
  intros o f p.
  destruct (getRecommendationFromCriteria_iff S) as [H1 [H2 [H3 H4]]].
  fold o f p in H1, H2, H3, H4.
  rewrite !recommend_some, H1, H2, H3, H4. tauto.
Qed.

(* ================================================================= *)
(** ** How the counts move *)

Lemma score_all (key : string) (S : StringSet) :
  (forall id, In id S -> favors key id = true) -> score key S = size S.
Proof.
  induction S as [|x S IH]; intros H.
  - reflexivity.
  - rewrite score_cons, (H x (or_introl eq_refl)).
    rewrite IH by (intros id Hid; apply H; now right). reflexivity.
Qed.

Lemma score_none (key : string) (S : StringSet) :
  (forall id, In id S -> favors key id = false) -> score key S = 0.
Proof.
  induction S as [|x S IH]; intros H.
  - reflexivity.
  - rewrite score_cons, (H x (or_introl eq_refl)).
    rewrite IH by (intros id Hid; apply H; now right). reflexivity.
Qed.

Lemma size_add (id : string) (S : StringSet) :
  size (add id S) = size S + (if has S id then 0 else 1).
Proof.
  unfold size, add, has. induction S as [|x S IH]; simpl.
  - reflexivity.
  - destruct (string_dec id x); simpl; lia.
Qed.

Lemma size_delete (id : string) (S : StringSet) :
  size (delete id S) + (if has S id then 1 else 0) = size S.
Proof.
  unfold size, delete, has. induction S as [|x S IH]; simpl.
  - reflexivity.
  - destruct (string_dec id x); simpl; lia.
Qed.

(** X2.  A non-empty selection whose ids all favor one paradigm gets that
    paradigm: all oop gives Object-Oriented, all functional gives
    Functional, all procedural gives Procedural. *)
Theorem X2_unanimous_selection (S : StringSet) :
  S <> [] ->
  ((forall id, In id S -> favors "oop" id = true) ->
     recommend S = Some ObjectOriented) /\
  ((forall id, In id S -> favors "functional" id = true) ->
     recommend S = Some Functional) /\
  ((forall id, In id S -> favors "procedural" id = true) ->
     recommend S = Some Procedural).
Proof.
  intros Hne.
  assert (Hsz : 0 < size S) by (destruct S; [contradiction | unfold size; simpl; lia]).
  assert (Hother : forall k1 k2, k1 <> k2 ->
            (forall id, In id S -> favors k1 id = true) -> score k2 S = 0).
  { intros k1 k2 Hk H. apply score_none. intros id Hid.
    apply (favors_other k1 k2 id (H id Hid) Hk). }
  rewrite (recommend_nonempty S Hne).
  repeat split; intros H.
  - assert (Ho : oopScore S = size S) by (apply score_all, H).
    assert (Hf : functionalScore S = 0) by (apply (Hother "oop"); [discriminate | exact H]).
    assert (Hp : proceduralScore S = 0) by (apply (Hother "oop"); [discriminate | exact H]).
    by_rule S.
  - assert (Hf : functionalScore S = size S) by (apply score_all, H).
    assert (Ho : oopScore S = 0) by (apply (Hother "functional"); [discriminate | exact H]).
    by_rule S.
  - assert (Hp : proceduralScore S = size S) by (apply score_all, H).
    assert (Ho : oopScore S = 0) by (apply (Hother "procedural"); [discriminate | exact H]).
    assert (Hf : functionalScore S = 0) by (apply (Hother "procedural"); [discriminate | exact H]).
    by_rule S.
Qed.

Lemma X2_unanimous_selection_witness :
  recommend ["pure"; "composition"; "immutability"] = Some Functional.
Proof.
  assert (Hne : ["pure"; "composition"; "immutability"] <> ([] : StringSet))
    by discriminate.
  apply (proj1 (proj2 (X2_unanimous_selection _ Hne))).
  intros id [<- | [<- | [<- | []]]]; reflexivity.
Defined.

(** X3.  One more vote for the winner changes nothing: adding an id that
    favors the paradigm already recommended leaves the recommendation as it
    is, for Object-Oriented, Functional and Procedural alike. *)
Theorem X3_vote_for_winner_keeps_result (S : StringSet) (id : string) :
  (recommend S = Some ObjectOriented -> favors "oop" id = true ->
     recommend (add id S) = Some ObjectOriented) /\
  (recommend S = Some Functional -> favors "functional" id = true ->
     recommend (add id S) = Some Functional) /\
  (recommend S = Some Procedural -> favors "procedural" id = true ->
     recommend (add id S) = Some Procedural).
Proof.
  assert (Hne' : add id S <> []) by apply set_add_not_empty.
  rewrite (recommend_nonempty _ Hne').
  destruct (getRecommendationFromCriteria_iff S) as [H1 [H2 [H3 _]]].
  cbv zeta in H1, H2, H3.
  pose proof (score_add "oop" id S) as Ho.
  pose proof (score_add "functional" id S) as Hf.
  pose proof (score_add "procedural" id S) as Hp.
  fold (oopScore (add id S)) (oopScore S) in Ho.
  fold (functionalScore (add id S)) (functionalScore S) in Hf.
  fold (proceduralScore (add id S)) (proceduralScore S) in Hp.
  repeat split; intros Hr Hfav; apply recommend_some in Hr; destruct Hr as [_ Hr].
  - apply H1 in Hr.
    rewrite (favors_other "oop" "functional" id Hfav) in Hf by discriminate.
    rewrite (favors_other "oop" "procedural" id Hfav) in Hp by discriminate.
    destruct (has S id), (favors "oop" id); by_rule (add id S).
  - apply H2 in Hr.
    rewrite (favors_other "functional" "oop" id Hfav) in Ho by discriminate.
    destruct (has S id), (favors "functional" id); by_rule (add id S).
  - apply H3 in Hr.
    rewrite (favors_other "procedural" "oop" id Hfav) in Ho by discriminate.
    rewrite (favors_other "procedural" "functional" id Hfav) in Hf by discriminate.
    destruct (has S id), (favors "procedural" id); by_rule (add id S).
Qed.

Lemma X3_vote_for_winner_keeps_result_witness :
  recommend ["state"; "pure"; "polymorphism"] = Some ObjectOriented /\
  recommend (add "inheritance" ["state"; "pure"; "polymorphism"])
  = Some ObjectOriented.
Proof.
  assert (H : recommend ["state"; "pure"; "polymorphism"] = Some ObjectOriented)
    by reflexivity.
  split; [exact H |].
  apply (proj1 (X3_vote_for_winner_keeps_result
                  ["state"; "pure"; "polymorphism"] "inheritance") H).
  reflexivity.
Defined.

(** X4.  One click on a checkbox moves the size of the selection and the
    count of the criterion's own paradigm by exactly one, up when the box
    was unchecked and down when it was checked; the count of any key the id
    does not favor stays put. *)
Theorem X4_toggle_moves_one_count (S : StringSet) (id key : string) :
  NoDup S ->
  (has S id = false ->
     size (toggle id S) = size S + 1 /\
     score key (toggle id S) = score key S + (if favors key id then 1 else 0)) /\
  (has S id = true ->
     size (toggle id S) + 1 = size S /\
     score key (toggle id S) + (if favors key id then 1 else 0) = score key S).
Proof.
  intros Hnd. unfold toggle. split; intros E; rewrite E.
  - pose proof (size_add id S) as Hs. pose proof (score_add key id S) as Hk.
    rewrite E in Hs, Hk. split; assumption.
  - pose proof (size_delete id S) as Hs.
    pose proof (score_delete key id S Hnd) as Hk.
    rewrite E in Hs, Hk. split; assumption.
Qed.

Lemma X4_toggle_moves_one_count_witness :
  oopScore (toggle "state" ["pure"; "state"]) + 1 = oopScore ["pure"; "state"] /\
  functionalScore (toggle "state" ["pure"; "state"]) + 0
  = functionalScore ["pure"; "state"].
Proof.
  assert (Hnd : NoDup ["pure"; "state"]).
  { repeat (apply NoDup_cons; [simpl; intuition discriminate |]).
    apply NoDup_nil. }
  split.
  - exact (proj2 (proj2 (X4_toggle_moves_one_count
                           ["pure"; "state"] "state" "oop" Hnd) eq_refl)).
  - exact (proj2 (proj2 (X4_toggle_moves_one_count
                           ["pure"; "state"] "state" "functional" Hnd) eq_refl)).
Defined.

(** X5.  Clicks on two checkboxes can be made in either order: the two
    resulting selections have the same members, and so the same
    recommendation. *)
Theorem X5_toggles_commute (S : StringSet) (x y : string) :
  NoDup S ->
  same_members (toggle x (toggle y S)) (toggle y (toggle x S)) /\
  recommend (toggle x (toggle y S)) = recommend (toggle y (toggle x S)).
Proof.
  intros Hnd.
  assert (Hsame : same_members (toggle x (toggle y S)) (toggle y (toggle x S))).
  { intros z.
    rewrite (toggle_In x (toggle y S) z (toggle_NoDup y S Hnd)).
    rewrite (toggle_In y (toggle x S) z (toggle_NoDup x S Hnd)).
    pose proof (toggle_In y S z Hnd) as Hy.
    pose proof (toggle_In x S z Hnd) as Hx.
    destruct (string_dec z x) as [Ex | Ex], (string_dec z y) as [Ey | Ey];
      destruct (in_dec string_dec z S); tauto. }
  split; [exact Hsame |].
  apply recommend_Permutation, same_members_Permutation;
    auto using toggle_NoDup.
Qed.

Lemma X5_toggles_commute_witness :
  recommend (toggle "pure" (toggle "state" ["state"; "simple"]))
  = recommend (toggle "state" (toggle "pure" ["state"; "simple"])).
Proof.
  refine (proj2 (X5_toggles_commute ["state"; "simple"] "pure" "state" _)).
  repeat (apply NoDup_cons; [simpl; intuition discriminate |]).
  apply NoDup_nil.
Defined.

(* ================================================================= *)
(** ** The counts, read off the catalogue *)

Lemma findCriterion_of_member (c : Criterion.t) :
  In c criteria -> findCriterion (Criterion.id c) = Some c.
Proof.
  intros Hin. unfold findCriterion.
  destruct (find_key_in Criterion.id (Criterion.id c) criteria
              (in_map _ _ _ Hin)) as [c' Hc'].
  rewrite Hc'. f_equal.
  destruct (find_key_some Criterion.id _ _ _ Hc') as [Hin' Hid'].
  apply (key_unique Criterion.id criteria); auto using criterion_ids_NoDup.
Qed.

Lemma favors_iff (key id : string) :
  favors key id = true <->
  exists c, In c criteria /\ Criterion.id c = id /\ Criterion.favor c = key.
Proof.
  unfold favors. split.
  - destruct (findCriterion id) as [c|] eqn:E; simpl; [| discriminate].
    intros H. apply String.eqb_eq in H.
    destruct (find_key_some Criterion.id _ _ _ E) as [Hin Hid].
    exists c. auto.
  - intros [c [Hin [<- <-]]]. rewrite (findCriterion_of_member c Hin). simpl.
    apply String.eqb_refl.
Qed.

Lemma NoDup_map_filter (A : Type) (key : A -> string) (g : A -> bool) (l : list A) :
  NoDup (map key l) -> NoDup (map key (filter g l)).
Proof.
  induction l as [|x l IH]; simpl; intros H.
  - constructor.
  - inversion H as [|? ? Hx Hl]; subst. destruct (g x); simpl.
    + constructor; [| now apply IH].
      intros Hin. apply Hx. apply in_map_iff in Hin.
      destruct Hin as [y [Hy Hyin]]. apply filter_In in Hyin.
      rewrite <- Hy. apply in_map. tauto.
    + now apply IH.
Qed.

Lemma score_count (S : StringSet) (key : string) :
  NoDup S ->
  score key S =
  List.length (filter (fun c => String.eqb (Criterion.favor c) key
                                && has S (Criterion.id c)) criteria).
Proof.
  intros Hnd. unfold score, Array_from.
  rewrite <- (length_map Criterion.id (filter _ criteria)).
  apply Permutation_length. apply NoDup_Permutation.
  - now apply NoDup_filter.
  - apply NoDup_map_filter, criterion_ids_NoDup.
  - intros id. rewrite filter_In, in_map_iff. split.
    + intros [Hin Hfav]. apply favors_iff in Hfav.
      destruct Hfav as [c [Hc [Hid Hk]]]. exists c. split; [exact Hid |].
      apply filter_In. split; [exact Hc |].
      apply andb_true_iff. split; [now apply String.eqb_eq |].
      apply has_In. now rewrite Hid.
    + intros [c [Hid Hc]]. apply filter_In in Hc. destruct Hc as [Hc Hb].
      apply andb_true_iff in Hb. destruct Hb as [Hk Hh].
      apply String.eqb_eq in Hk. apply has_In in Hh. subst id.
      split; [exact Hh |]. apply favors_iff. exists c. auto.
Qed.

(** X6.  On a duplicate-free selection each count is the number of
    catalogue criteria of that paradigm whose box is checked: an id counts
    for [key] exactly when it is the id of a criterion that favors [key]. *)
Theorem X6_score_counts_checked_criteria (S : StringSet) (key : string) :
  NoDup S ->
  (forall id, favors key id = true <->
     exists c, In c criteria /\ Criterion.id c = id /\ Criterion.favor c = key) /\
  score key S =
  List.length (filter (fun c => String.eqb (Criterion.favor c) key
                                && has S (Criterion.id c)) criteria).
Proof.
  intros Hnd. split; [intros id; apply favors_iff | now apply score_count].
Qed.

Lemma X6_score_counts_checked_criteria_witness :
  score "functional" ["immutability"; "mystery"; "state"; "pure"] = 2.
Proof.
  refine (eq_trans (proj2 (X6_score_counts_checked_criteria
             ["immutability"; "mystery"; "state"; "pure"] "functional" _)) _).
  - repeat (apply NoDup_cons; [simpl; intuition discriminate |]).
    apply NoDup_nil.
  - reflexivity.
Defined.

(* ================================================================= *)
(** ** Every state of the page *)

Lemma score_bounds (S : StringSet) :
  NoDup S ->
  oopScore S <= 4 /\ functionalScore S <= 3 /\
  proceduralScore S = (if has S "simple" then 1 else 0).
Proof.
  intros Hnd. unfold oopScore, functionalScore, proceduralScore.
  rewrite !(score_count S _ Hnd). simpl.
  repeat match goal with |- context [has S ?x] => destruct (has S x) end;
    simpl; repeat split; lia.
Qed.

Lemma set_add_fresh (x : string) (l : StringSet) :
  ~ In x l -> add x l = (l ++ [x])%list.
Proof.
  unfold add. induction l as [|y l IH]; simpl; intros H.
  - reflexivity.
  - destruct (string_dec x y) as [-> | _].
    + exfalso. apply H. now left.
    + f_equal. apply IH. tauto.
Qed.

Lemma findScenario_empty_id : findScenario "" = None.
Proof. reflexivity. Qed.

Lemma comparison_invariant (st : State) :
  reachable st -> selectedScenario st = "" -> showComparison st = false.
Proof.
  induction 1 as [| a st Hr IH Hen].
  - reflexivity.
  - destruct a as [c | s |];
      cbn [step enabled toggleCriterion selectScenario toggleComparison
           selectedScenario showComparison] in *.
    + exact IH.
    + reflexivity.
    + intros E. exfalso. apply Hen. unfold scenario. now rewrite E.
Qed.

(** X7.  In every state the page can reach, the selection has no duplicate,
    holds ids of catalogue criteria only, and so has at most eight members;
    the three counts add up to its size, with at most four oop votes, three
    functional votes and one procedural vote. *)
Theorem X7_reachable_selection (st : State) :
  reachable st ->
  let S := selectedCriteria st in
  NoDup S /\
  (forall id, In id S -> exists c, In c criteria /\ Criterion.id c = id) /\
  size S <= 8 /\
  oopScore S + functionalScore S + proceduralScore S = size S /\
  oopScore S <= 4 /\ functionalScore S <= 3 /\ proceduralScore S <= 1.
Proof.
  intros Hr S. destruct (reachable_invariant st Hr) as [Hnd [Hincl _]].
  fold S in Hnd, Hincl.
  pose proof (scores_sum S Hincl) as Hsum.
  destruct (score_bounds S Hnd) as [Ho [Hf Hp]].
  split; [exact Hnd |]. split.
  - intros id Hid. apply Hincl, in_map_iff in Hid.
    destruct Hid as [c [Hc Hin]]. exists c. auto.
  - destruct (has S "simple"); repeat split; lia.
Qed.

Lemma X7_reachable_selection_witness :
  size (selectedCriteria
          (run [ClickCriterion (Criterion.mk "simple" "Simple Utilities"
                  "Are these simple utility functions without complex relationships?"
                  "procedural")] initialState)) <= 8.
Proof.
  refine (proj1 (proj2 (proj2 (X7_reachable_selection _ _)))).
  match goal with
  | |- reachable (run [?a] _) => apply (reach_step a initialState reach_init)
  end.
  simpl. auto 10.
Defined.

(** X8.  Conversely, every duplicate-free list of catalogue criterion ids is
    the selection of a state the page can reach, in that very insertion
    order: check the boxes one after the other. *)
Theorem X8_every_selection_reachable (l : list string) :
  NoDup l ->
  incl l (map Criterion.id criteria) ->
  exists st, reachable st /\ selectedCriteria st = l /\
             selectedScenario st = "" /\ showComparison st = false.
Proof.
  induction l as [|x l IH] using rev_ind; intros Hnd Hincl.
  - exists initialState. repeat split. apply reach_init.
  - assert (Hnd' : NoDup (x :: l)).
    { apply (Permutation_NoDup (l := (l ++ [x])%list)); [| exact Hnd].
      apply Permutation_sym, Permutation_cons_append. }
    inversion Hnd' as [|? ? Hx Hl]; subst.
    destruct (IH Hl) as [st [Hr [Hsel [Hsc Hcmp]]]].
    { intros y Hy. apply Hincl, in_or_app. now left. }
    assert (Hxin : In x (map Criterion.id criteria))
      by (apply Hincl, in_or_app; right; now left).
    apply in_map_iff in Hxin. destruct Hxin as [c [Hc Hcin]].
    exists (step (ClickCriterion c) st). split; [| split; [| split]].
    + apply reach_step; assumption.
    + simpl. rewrite Hc, Hsel. unfold toggle.
      assert (E : has l x = false).
      { destruct (has l x) eqn:E; [| reflexivity].
        apply has_In in E. contradiction. }
      rewrite E. now apply set_add_fresh.
    + exact Hsc.
    + exact Hcmp.
Qed.

Lemma X8_every_selection_reachable_witness :
  exists st, reachable st /\ selectedCriteria st = ["simple"; "state"].
Proof.
  destruct (X8_every_selection_reachable ["simple"; "state"])
    as [st [Hr [Hsel _]]].
  - repeat (apply NoDup_cons; [simpl; intuition discriminate |]).
    apply NoDup_nil.
  - intros id [<- | [<- | []]]; simpl; auto 10.
  - exists st. split; assumption.
Defined.

Lemma nonempty_size (S : StringSet) : S <> [] <-> 0 < size S.
Proof.
  unfold size. destruct S; simpl; split; intros H;
    try lia; try discriminate; contradiction.
Qed.

(** X9.  On the page as it can be reached, Procedural is recommended
    exactly when "simple" is checked with at most one oop box and no more
    functional boxes than oop boxes; Hybrid Approach exactly when as many
    oop as functional boxes are checked, at least one of each, and at least
    two of each if "simple" is checked too. *)
Theorem X9_procedural_and_hybrid_on_the_page (st : State) :
  reachable st ->
  let S := selectedCriteria st in
  (recommendation st = Some Procedural <->
     has S "simple" = true /\ functionalScore S <= oopScore S /\ oopScore S <= 1) /\
  (recommendation st = Some Hybrid <->
     oopScore S = functionalScore S /\ 1 <= oopScore S /\
     (has S "simple" = false \/ 2 <= oopScore S)).
Proof.
  intros Hr S. unfold recommendation. fold S.
  destruct (reachable_invariant st Hr) as [Hnd [Hincl _]].
  fold S in Hnd, Hincl.
  pose proof (scores_sum S Hincl) as Hsum.
  destruct (score_bounds S Hnd) as [_ [_ Hp]].
  destruct (getRecommendationFromCriteria_iff S) as [_ [_ [H3 H4]]].
  cbv zeta in H3, H4.
  rewrite !recommend_some, H3, H4, nonempty_size.
  destruct (has S "simple"); split; split; intros H;
    repeat split; try lia; try reflexivity;
    try (exfalso; destruct H as [_ [_ [_ [H | H]]]]; (discriminate || lia));
    try (destruct H as [_ [_ [H | H]]]; (discriminate || lia)).
Qed.

Lemma X9_procedural_and_hybrid_on_the_page_witness :
  recommendation
    (run [ClickCriterion (Criterion.mk "simple" "Simple Utilities"
            "Are these simple utility functions without complex relationships?"
            "procedural")] initialState)
  = Some Procedural.
Proof.
  match goal with
  | |- recommendation (run [?a] _) = _ =>
      refine (proj2 (proj1 (X9_procedural_and_hybrid_on_the_page _
                (reach_step a initialState reach_init _))) _)
  end.
  - simpl. auto 10.
  - vm_compute. repeat split; lia.
Defined.



(* ================================================================= *)
(** ** The scenario list and the details panel *)

Lemma detailsShown_iff (st : State) :
  detailsShown st = true <-> In (selectedScenario st) (map Scenario.id scenarios).
Proof.
  unfold detailsShown, scenario. split.
  - destruct (findScenario (selectedScenario st)) as [s|] eqn:E; [| discriminate].
    intros _. destruct (find_key_some Scenario.id _ _ _ E) as [Hin Hid].
    rewrite <- Hid. now apply in_map.
  - intros Hin. destruct (findScenario_known _ Hin) as [s [Hs _]].
    now rewrite Hs.
Qed.

Lemma scenario_recommendations_known :
  forall s, In s scenarios -> In (Scenario.recommendation s) paradigm_keys.
Proof.
  apply Forall_forall.
  repeat apply Forall_cons; try apply Forall_nil; simpl; auto 10.
Qed.

(** X11.  On the page as it can be reached, the details panel is displayed
    exactly when a scenario has been chosen; the comparison flag is never on
    without the panel, so the comparison is displayed exactly when the flag
    is on; and no click hides the panel again. *)
Theorem X11_details_and_comparison (st : State) :
  reachable st ->
  (detailsShown st = true <-> selectedScenario st <> "") /\
  (showComparison st = true -> detailsShown st = true) /\
  comparisonShown st = showComparison st /\
  (forall a, enabled a st -> detailsShown st = true ->
             detailsShown (step a st) = true).
Proof.
  intros Hr. destruct (reachable_invariant st Hr) as [_ [_ Hsel]].
  pose proof (comparison_invariant st Hr) as Hcmp.
  assert (H1 : detailsShown st = true <-> selectedScenario st <> "").
  { rewrite detailsShown_iff. split.
    - intros Hin E. rewrite E in Hin. simpl in Hin. intuition discriminate.
    - intros Hne. destruct Hsel as [E | Hin]; [contradiction | exact Hin]. }
  assert (H2 : showComparison st = true -> detailsShown st = true).
  { intros Hon. apply H1. intros E. rewrite (Hcmp E) in Hon. discriminate. }
  split; [exact H1 |]. split; [exact H2 |]. split.
  - unfold comparisonShown. destruct (showComparison st) eqn:E.
    + now rewrite (H2 eq_refl).
    + apply andb_false_r.
  - intros [c | s |] Hen Hshown; cbn [step enabled] in *.
    + exact Hshown.
    + apply detailsShown_iff. cbn [selectScenario selectedScenario].
      now apply in_map.
    + exact Hshown.
Qed.

Lemma X11_details_and_comparison_witness :
  match nth_error scenarios 0 with
  | Some s =>
      showComparison (run [ClickScenario s; ClickComparison] initialState) = true /\
      detailsShown (run [ClickScenario s; ClickComparison] initialState) = true
  | None => False
  end.
Proof.
  destruct (nth_error scenarios 0) as [s|] eqn:E; [| discriminate E].
  assert (Hin : In s scenarios) by now apply (nth_error_In scenarios 0).
  assert (Hr : reachable (run [ClickScenario s; ClickComparison] initialState)).
  { apply (reach_step ClickComparison (step (ClickScenario s) initialState)).
    - apply (reach_step (ClickScenario s) initialState reach_init Hin).
    - injection E as <-. vm_compute. discriminate. }
  split; [reflexivity |].
  apply (proj1 (proj2 (X11_details_and_comparison _ Hr))).
  reflexivity.
Defined.

(** X12.  After a click on a scenario of the catalogue, the details panel
    shows that scenario; its button is the highlighted one, with a border in
    one of the four paradigm colours, and every other button of the list has
    the plain border and background. *)
Theorem X12_one_scenario_highlighted (s : Scenario.t) (st : State) :
  In s scenarios ->
  let st' := selectScenario s st in
  scenario st' = Some s /\
  (exists col, scenarioBorderColor st' s = Some col /\
               In col [blue; green; amber; purple]) /\
  scenarioBackground st' s = "#f9fafb" /\
  (forall s', In s' scenarios -> s' <> s ->
     scenarioBorderColor st' s' = Some "#e5e7eb" /\
     scenarioBackground st' s' = "white").
Proof.
  intros Hin st'. subst st'.
  unfold scenarioBorderColor, scenarioBackground.
  cbn [selectScenario selectedScenario].
  split; [| split; [| split]].
  - unfold scenario. cbn [selectScenario selectedScenario].
    destruct (findScenario_known _ (in_map Scenario.id _ _ Hin))
      as [s0 [Hfind [_ [_ Huniq]]]].
    rewrite Hfind. f_equal. symmetry. now apply Huniq.
  - rewrite String.eqb_refl.
    pose proof (scenario_recommendations_known s Hin) as Hrec.
    simpl in Hrec.
    destruct Hrec as [<- | [<- | [<- | [<- | []]]]]; simpl;
      eexists; (split; [reflexivity | simpl; auto 10]).
  - now rewrite String.eqb_refl.
  - intros s' Hin' Hne.
    destruct (String.eqb_spec (Scenario.id s) (Scenario.id s')) as [E | E].
    + exfalso. apply Hne.
      apply (key_unique Scenario.id scenarios); auto using scenario_ids_NoDup.
    + split; reflexivity.
Qed.

Lemma X12_one_scenario_highlighted_witness :
  match nth_error scenarios 2 with
  | Some s => scenario (selectScenario s (mkState "api-client" ["pure"] true)) = Some s
  | None => False
  end.
Proof.
  destruct (nth_error scenarios 2) as [s|] eqn:E; [| discriminate E].
  refine (proj1 (X12_one_scenario_highlighted s _ _)).
  now apply (nth_error_In scenarios 2).
Defined.

(** X13.  For every criterion of the catalogue, the colour the page gives
    its favor is the entry of the [colors] table under that favor, and with
    that box alone checked the recommendation comes in the very colour of
    the box's border. *)
Theorem X13_single_box_colour (c : Criterion.t) (st : State) :
  In c criteria ->
  colors (Criterion.favor c) = Some (favorColor c) /\
  (exists r, recommend [Criterion.id c] = Some r /\ color r = favorColor c) /\
  (checked st c = true ->
   exists r, recommend [Criterion.id c] = Some r /\
             color r = criterionBorderColor st c).
Proof.
  intros Hin.
  assert (H : colors (Criterion.favor c) = Some (favorColor c) /\
              exists r, recommend [Criterion.id c] = Some r /\
                        color r = favorColor c).
  { simpl in Hin.
    repeat (destruct Hin as [<- | Hin];
            [split; [reflexivity | eexists; split; reflexivity] |]).
    contradiction. }
  destruct H as [H1 [r [H2 H3]]].
  split; [exact H1 |]. split; [exists r; auto |].
  intros Hc. exists r. split; [exact H2 |].
  unfold criterionBorderColor. unfold checked in Hc. now rewrite Hc.
Qed.

Lemma X13_single_box_colour_witness :
  match nth_error criteria 4 with
  | Some c => colors (Criterion.favor c) = Some (favorColor c)
  | None => False
  end.
Proof.
  destruct (nth_error criteria 4) as [c|] eqn:E; [| discriminate E].
  refine (proj1 (X13_single_box_colour c initialState _)).
  now apply (nth_error_In criteria 4).
Defined.
